(** * errx: enriched Go errors (HTTP code, custom code, context, cause)

    A shallow embedding of the two variants of package [errx] found in the
    repository, and the properties of its construction and inspection API.

    - [Options]  : the option-based variant ([New] and [Wrap] taking
                   [Property] functions, [CustomError] with value
                   receivers).
    - [Methods]  : the method-based variant of errx.go ([*CustomError]
                   receivers that assign to the pointee).

    Go interface values are modelled as [option]: [None] is the [nil]
    interface, [Some v] a dynamic value [v].  Heap pointers carry the address
    they were allocated at, since [==] on pointers is address equality. *)

From Stdlib Require Import ZArith Lia.
From stdpp Require Import gmap strings.

Local Open Scope Z_scope.

(** Addresses of heap allocated objects. *)
Definition loc : Type := nat.

(** [context.Context] as the library sees it: an interface value that is
    stored and returned verbatim.  It is [nil], the process-wide
    [context.Background()], or some other request-scoped handle. *)
Module context.

Inductive Context : Type :=
| nilContext
| Background
| Request (id : nat).

(** [==] on two context values. *)
Definition eqb (a b : Context) : bool :=
  match a, b with
  | nilContext, nilContext => true
  | Background, Background => true
  | Request i, Request j => Nat.eqb i j
  | _, _ => false
  end.

End context.

(** ** Computations

    A computation runs from a state and either panics ([None]) or returns a
    value with the state afterwards. *)
Definition Comp (St A : Type) : Type := St -> option (A * St).

Definition ret {St A} (a : A) : Comp St A := fun s => Some (a, s).
Definition bind {St A B} (c : Comp St A) (k : A -> Comp St B) : Comp St B :=
  fun s => match c s with
           | Some (a, s') => k a s'
           | None => None
           end.
Definition panic {St A} : Comp St A := fun _ => None.

Notation "'let*' x ':=' c 'in' k" := (bind c (fun x => k))
  (at level 10, x name, c at level 100, k at level 200).

(** ** The option-based variant *)
Module Options.

(** [type CustomError struct { base error; Message string; HTTPCode int;
    CustomCode int; CTX context.Context }], over the type [E] of non-nil
    error values.  Go's [int] codes are only stored and read back, so they
    are kept as integers without any arithmetic. *)
Record CustomError_ (E : Type) : Type := mkCustomError {
  base : option E;
  Message : string;
  HTTPCode : Z;
  CustomCode : Z;
  CTX : context.Context
}.
Arguments mkCustomError {E} _ _ _ _ _.
Arguments base {E} _.
Arguments Message {E} _.
Arguments HTTPCode {E} _.
Arguments CustomCode {E} _.
Arguments CTX {E} _.

(** The dynamic values an [error] interface can hold in this program:
    - [fundamental]  : [*errors.fundamental], made by pkg/errors' [New];
    - [withMessage], [withStack] : the two layers pkg/errors' [Wrap] adds;
    - [foreign]      : an error of some other package (for instance from
                       [fmt.Errorf]), with its text and what its [Unwrap]
                       returns, if it has one;
    - [CustomErrorV] : a [CustomError] held by value;
    - [CustomErrorP] : a [*CustomError], pointing at address [p].
    Pointers are non-nil, and nothing assigns through them in this variant,
    so a pointer carries what it points at.  Foreign errors with [Is] or
    [As] methods of their own are not covered. *)
#[warnings="-register-all"]
Inductive errval : Type :=
| fundamental (p : loc) (msg : string)
| withMessage (p : loc) (cause : errval) (msg : string)
| withStack (p : loc) (inner : errval)
| foreign (p : loc) (text : string) (unwrap : option errval)
| CustomErrorV (c : CustomError_ errval)
| CustomErrorP (p : loc) (c : CustomError_ errval).

Definition CustomError : Type := CustomError_ errval.

(** The interface type [error]; [None] is [nil]. *)
Definition error : Type := option errval.

(** Field updates, as the assignments [customErr.F = v] on a local copy. *)
Definition setHTTPCode (c : CustomError) (v : Z) : CustomError :=
  mkCustomError (base c) (Message c) v (CustomCode c) (CTX c).
Definition setCustomCode (c : CustomError) (v : Z) : CustomError :=
  mkCustomError (base c) (Message c) (HTTPCode c) v (CTX c).
Definition setCTX (c : CustomError) (v : context.Context) : CustomError :=
  mkCustomError (base c) (Message c) (HTTPCode c) (CustomCode c) v.

(** [Error()] of every dynamic type.  For [CustomError] (value receiver, so
    also callable through a pointer):
    [baseErrMsg := ""; if e.base != nil { baseErrMsg = e.base.Error() };
     return fmt.Sprintf("%s: %s", baseErrMsg, e.Message)]. *)
Fixpoint Error (v : errval) : string :=
  match v with
  | fundamental _ msg => msg
  | withMessage _ cause msg => msg +:+ ": " +:+ Error cause
  | withStack _ inner => Error inner
  | foreign _ text _ => text
  | CustomErrorV c | CustomErrorP _ c =>
      let baseErrMsg :=
        match base c with
        | Some b => Error b
        | None => ""
        end in
      baseErrMsg +:+ ": " +:+ Message c
  end.

(** [func (e CustomError) Cause() error { return e.base }] *)
Definition Cause (e : CustomError) : error := base e.

(** Computations of this variant only allocate: the state is the next free
    address. *)
Definition M (A : Type) : Type := Comp loc A.

Definition alloc : M loc := fun n => Some (n, S n).

(** A method call [err.Error()] on an interface value: a nil interface
    panics. *)
Definition callError (err : error) : M string :=
  match err with
  | Some v => ret (Error v)
  | None => panic
  end.

(** *** github.com/pkg/errors *)
Module errors.

(** Modelled from the spec: pkg/errors' [New] is imported, not part of the
    repository.  It returns a pointer to a fresh [fundamental] error whose
    text is the message. *)
Definition New (message : string) : M error :=
  let* p := alloc in ret (Some (fundamental p message)).

(** Modelled from the spec: pkg/errors' [Wrap], the generic
    wrap-with-prefix primitive, is imported, not part of the repository.
    [nil] stays [nil]; otherwise the result is a fresh [withStack] around a
    fresh [withMessage], whose text is the message, [": "] and the cause's
    text, and whose predecessor is the cause. *)
Definition Wrap (err : error) (message : string) : M error :=
  match err with
  | None => ret None
  | Some v =>
      let* p := alloc in
      let* q := alloc in
      ret (Some (withStack q (withMessage p v message)))
  end.

(** [Unwrap()] where the dynamic type has that method: the two layers of
    pkg/errors have it, a foreign error may have it.  [CustomError] of this
    variant declares [Error] and [Cause] only, so neither it nor its
    pointer type has it. *)
Definition Unwrap (v : errval) : option errval :=
  match v with
  | withMessage _ cause _ => Some cause
  | withStack _ inner => Some inner
  | foreign _ _ unwrap => unwrap
  | fundamental _ _ | CustomErrorV _ | CustomErrorP _ _ => None
  end.

(** [==] on two non-nil interface values: the dynamic types agree and the
    values are equal; pointers by address, a [CustomError] struct field by
    field. *)
Fixpoint errval_eqb (a b : errval) {struct a} : bool :=
  match a, b with
  | fundamental p _, fundamental q _ => Nat.eqb p q
  | withMessage p _ _, withMessage q _ _ => Nat.eqb p q
  | withStack p _, withStack q _ => Nat.eqb p q
  | foreign p _ _, foreign q _ _ => Nat.eqb p q
  | CustomErrorP p _, CustomErrorP q _ => Nat.eqb p q
  | CustomErrorV c, CustomErrorV d =>
      match base c, base d with
      | None, None => true
      | Some x, Some y => errval_eqb x y
      | _, _ => false
      end
      && String.eqb (Message c) (Message d)
      && Z.eqb (HTTPCode c) (HTTPCode d)
      && Z.eqb (CustomCode c) (CustomCode d)
      && context.eqb (CTX c) (CTX d)
  | _, _ => false
  end.

(** Modelled from the spec: the chain-walking identity predicate is
    imported, not part of the repository (pkg/errors' [Is] forwards to the
    standard library's).  It is true iff the target appears in the
    predecessor chain of the error, by [==].  The chain is the one Go walks:
    the error itself, then what its [Unwrap] method returns, repeatedly; a
    value whose type declares no [Unwrap] ends it, whatever its fields
    hold. *)
Fixpoint is_ (v target : errval) {struct v} : bool :=
  errval_eqb v target ||
  match v with
  | withMessage _ cause _ => is_ cause target
  | withStack _ inner => is_ inner target
  | foreign _ _ (Some u) => is_ u target
  | _ => false
  end.

Definition Is (err target : error) : bool :=
  match err, target with
  | Some v, Some t => is_ v t
  | None, None => true
  | _, _ => false
  end.

(** Modelled from the spec: the chain-walking type extraction is imported,
    not part of the repository.  It finds the first error of the chain that
    is assignable to the destination.  [as_value] is the call the source
    makes everywhere, [errors.As(err, &customErr)] with [var customErr
    CustomError]: a [CustomError] held by value is assignable to it, a
    [*CustomError] is not. *)
Fixpoint as_value (v : errval) : option CustomError :=
  match v with
  | CustomErrorV c => Some c
  | withMessage _ cause _ => as_value cause
  | withStack _ inner => as_value inner
  | foreign _ _ (Some u) => as_value u
  | _ => None
  end.

Definition As (err : error) : option CustomError :=
  match err with
  | Some v => as_value v
  | None => None
  end.

(** Modelled from the spec: the same extraction at the other destination
    type, [errors.As(err, &p)] with [var p *CustomError]; only a pointer in
    the chain is assignable to it. *)
Fixpoint as_pointer (v : errval) : option (loc * CustomError) :=
  match v with
  | CustomErrorP p c => Some (p, c)
  | withMessage _ cause _ => as_pointer cause
  | withStack _ inner => as_pointer inner
  | foreign _ _ (Some u) => as_pointer u
  | _ => None
  end.

Definition AsPtr (err : error) : option (loc * CustomError) :=
  match err with
  | Some v => as_pointer v
  | None => None
  end.

End errors.

(** [type Property func(err error) error]; a property may be any function,
    so it may allocate or panic. *)
Definition Property : Type := error -> M error.

(** [for _, property := range properties { result = property(result) }] *)
Fixpoint applyProperties (properties : list Property) (result : error) : M error :=
  match properties with
  | [] => ret result
  | property :: rest =>
      let* result' := property result in applyProperties rest result'
  end.

(** [func New(msg string, properties ...Property) error] *)
Definition New (msg : string) (properties : list Property) : M error :=
  if Nat.eqb (length properties) 0 then errors.New msg
  else
    applyProperties properties
      (Some (CustomErrorV (mkCustomError None msg 0 0 context.Background))).

(** [func Wrap(err error, msg string, properties ...Property) error].  The
    composite literal [&CustomError{base: customErr, Message: msg}] leaves
    the codes at zero and [CTX] at nil. *)
Definition Wrap (err : error) (msg : string) (properties : list Property) : M error :=
  match err with
  | None => ret None
  | Some _ =>
      match errors.As err with
      | Some customErr =>
          let* p := alloc in
          applyProperties properties
            (Some (CustomErrorP p
                     (mkCustomError (Some (CustomErrorV customErr)) msg 0 0 context.nilContext)))
      | None => errors.Wrap err msg
      end
  end.

(** [func WithHTTPCode(httpCode int) Property] *)
Definition WithHTTPCode (httpCode : Z) : Property := fun err =>
  match errors.As err with
  | Some customErr => ret (Some (CustomErrorV (setHTTPCode customErr httpCode)))
  | None =>
      let* text := callError err in
      ret (Some (CustomErrorV (mkCustomError None text httpCode 0 context.nilContext)))
  end.

(** [func WithCustomCode(customCode int) Property] *)
Definition WithCustomCode (customCode : Z) : Property := fun err =>
  match errors.As err with
  | Some customErr => ret (Some (CustomErrorV (setCustomCode customErr customCode)))
  | None =>
      let* text := callError err in
      ret (Some (CustomErrorV (mkCustomError None text 0 customCode context.nilContext)))
  end.

(** [func WithContext(ctx context.Context) Property] *)
Definition WithContext (ctx : context.Context) : Property := fun err =>
  match errors.As err with
  | Some customErr => ret (Some (CustomErrorV (setCTX customErr ctx)))
  | None =>
      let* text := callError err in
      ret (Some (CustomErrorV (mkCustomError None text 0 0 ctx)))
  end.

(** [func Is(err, target error) bool { return errors.Is(err, target) }] *)
Definition Is (err target : error) : bool := errors.Is err target.

(** [func As(err error, target any) bool { return errors.As(err, target) }],
    at the two target types an enriched error can be extracted into. *)
Definition As (err : error) : option CustomError := errors.As err.
Definition AsPtr (err : error) : option (loc * CustomError) := errors.AsPtr err.

End Options.

(** ** The method-based variant *)
Module Methods.

(** The [error] values of this variant: [nil], an error of another package
    (with its address and text), or a [*CustomError]. *)
Inductive error : Type :=
| nil
| plain (p : loc) (text : string)
| ptr (p : loc).

(** [type CustomError struct { base error; message string; httpCode int;
    customCode int; ctx context.Context }] *)
Record CustomError : Type := mkCustomError {
  base : error;
  message : string;
  httpCode : Z;
  customCode : Z;
  ctx : context.Context
}.

(** The methods have pointer receivers and assign to the pointee, so the
    state is the heap of [CustomError] objects. *)
Definition M (A : Type) : Type := Comp (gmap loc CustomError) A.

(** [*e]: a nil or dangling receiver panics. *)
Definition deref (e : loc) : M CustomError :=
  fun h => match h !! e with
           | Some c => Some (c, h)
           | None => None
           end.

Definition store (e : loc) (c : CustomError) : M unit :=
  fun h => Some (tt, <[e := c]> h).

(** [func New(msg string) error]: [&CustomError{message: msg, ctx:
    context.Background()}] at a fresh address. *)
Definition New (msg : string) : M error :=
  fun h =>
    let p := fresh (dom h) in
    Some (ptr p, <[p := mkCustomError nil msg 0 0 context.Background]> h).

(** [func (e *CustomError) Error() string { return e.message }] *)
Definition Error (e : loc) : M string :=
  let* c := deref e in ret (message c).

(** [func (e *CustomError) Unwrap() error { return e.base }] *)
Definition Unwrap (e : loc) : M error :=
  let* c := deref e in ret (base c).

(** [func (e *CustomError) Wrap(err error) error { e.base = err; return err }] *)
Definition Wrap (e : loc) (err : error) : M error :=
  let* c := deref e in
  let* _ := store e (mkCustomError err (message c) (httpCode c) (customCode c) (ctx c)) in
  ret err.

(** [func (e *CustomError) HTTPCode() int { return e.httpCode }] *)
Definition HTTPCode (e : loc) : M Z :=
  let* c := deref e in ret (httpCode c).

(** [func (e *CustomError) CustomCode() int { return e.customCode }] *)
Definition CustomCode (e : loc) : M Z :=
  let* c := deref e in ret (customCode c).

(** [func (e *CustomError) Cause() error { return e.base }] *)
Definition Cause (e : loc) : M error :=
  let* c := deref e in ret (base c).

(** [func (e *CustomError) Context() context.Context { return e.ctx }] *)
Definition Context (e : loc) : M context.Context :=
  let* c := deref e in ret (ctx c).

(** [func (e *CustomError) WithHttpCode(httpCode int) error] *)
Definition WithHttpCode (e : loc) (code : Z) : M error :=
  let* c := deref e in
  let* _ := store e (mkCustomError (base c) (message c) code (customCode c) (ctx c)) in
  ret (ptr e).

(** [func (e *CustomError) WithCustomCode(customCode int) error] *)
Definition WithCustomCode (e : loc) (code : Z) : M error :=
  let* c := deref e in
  let* _ := store e (mkCustomError (base c) (message c) (httpCode c) code (ctx c)) in
  ret (ptr e).

(** [func (e *CustomError) WithContext(ctx context.Context) error] *)
Definition WithContext (e : loc) (x : context.Context) : M error :=
  let* c := deref e in
  let* _ := store e (mkCustomError (base c) (message c) (httpCode c) (customCode c) x) in
  ret (ptr e).

(** The display text of an interface value, [err.Error()]: dynamic
    dispatch on what it holds; a nil interface panics. *)
Definition callError (err : error) : M string :=
  match err with
  | nil => panic
  | plain _ text => ret text
  | ptr p => Error p
  end.

(** [==] on two interface values of this variant: both nil, or the same
    object. *)
Definition error_eqb (a b : error) : bool :=
  match a, b with
  | nil, nil => true
  | plain p _, plain q _ => Nat.eqb p q
  | ptr p, ptr q => Nat.eqb p q
  | _, _ => false
  end.

(** Modelled from the spec: the standard library's [errors.Is] is imported,
    not part of the repository.  With a nil error or a nil target it
    compares the two.  Otherwise it walks the chain: the error is the
    target, or its own [Is] method accepts the target, or the walk goes on
    with what [Unwrap] returns and fails when that is nil.  Of the values
    of this variant only a [*CustomError] has [Is] and [Unwrap] (both
    below); a [plain] error is taken to have neither.  The walk need not
    end, so it runs on fuel: [None] is a walk that ran out of it, or a
    panic on a dangling pointer. *)
Fixpoint errors_Is (fuel : nat) (err target : error)
    (h : gmap loc CustomError) : option bool :=
  match fuel with
  | O => None
  | S fuel' =>
      match err, target with
      | nil, _ => Some (error_eqb nil target)
      | _, nil => Some false
      | plain _ _, _ => Some (error_eqb err target)
      | ptr q, _ =>
          if error_eqb err target then Some true
          else
            match h !! q with
            | None => None
            | Some c =>
                match errors_Is fuel' (base c) target h with
                | None => None
                | Some true => Some true
                | Some false =>
                    match base c with
                    | nil => Some false
                    | b => errors_Is fuel' b target h
                    end
                end
            end
      end
  end.

(** [func (e *CustomError) Is(err error) bool { return errors.Is(e.base, err) }] *)
Definition Is (fuel : nat) (e : loc) (err : error) : M bool :=
  let* c := deref e in
  fun h => match errors_Is fuel (base c) err h with
           | Some b => Some (b, h)
           | None => None
           end.

(** The calls that create or change a [CustomError]. *)
Inductive method_call : Type :=
| CallNew (msg : string)
| CallWrap (e : loc) (err : error)
| CallWithHttpCode (e : loc) (httpCode : Z)
| CallWithCustomCode (e : loc) (customCode : Z)
| CallWithContext (e : loc) (x : context.Context).

Definition run_call (k : method_call) : M error :=
  match k with
  | CallNew msg => New msg
  | CallWrap e err => Wrap e err
  | CallWithHttpCode e httpCode => WithHttpCode e httpCode
  | CallWithCustomCode e customCode => WithCustomCode e customCode
  | CallWithContext e x => WithContext e x
  end.

(** A program of such calls, one after the other; the returned values are
    dropped. *)
Fixpoint run_calls (ks : list method_call) : M unit :=
  match ks with
  | [] => ret tt
  | k :: rest => let* _ := run_call k in run_calls rest
  end.

(** The fields of a [CustomError] that calls assign to. *)
Inductive field : Type := Fbase | FhttpCode | FcustomCode | Fctx.

(** The receiver and the field a call assigns to; [New] assigns to no
    object that exists. *)
Definition assigns (k : method_call) : option (loc * field) :=
  match k with
  | CallNew _ => None
  | CallWrap e _ => Some (e, Fbase)
  | CallWithHttpCode e _ => Some (e, FhttpCode)
  | CallWithCustomCode e _ => Some (e, FcustomCode)
  | CallWithContext e _ => Some (e, Fctx)
  end.

(** The object an assigning call leaves at its receiver, from the object
    it found there, and the value the call returns. *)
Definition assigned (k : method_call) (c : CustomError) : CustomError :=
  match k with
  | CallNew _ => c
  | CallWrap _ err => mkCustomError err (message c) (httpCode c) (customCode c) (ctx c)
  | CallWithHttpCode _ z => mkCustomError (base c) (message c) z (customCode c) (ctx c)
  | CallWithCustomCode _ z => mkCustomError (base c) (message c) (httpCode c) z (ctx c)
  | CallWithContext _ x => mkCustomError (base c) (message c) (httpCode c) (customCode c) x
  end.

Definition returned (k : method_call) : error :=
  match k with
  | CallNew _ => nil
  | CallWrap _ err => err
  | CallWithHttpCode e _ | CallWithCustomCode e _ | CallWithContext e _ => ptr e
  end.



End Methods.

(** ** Vocabulary of the properties *)

(** A call of one of the library's three option constructors. *)
Inductive option_call : Type :=
| CallWithHTTPCode (httpCode : Z)
| CallWithCustomCode (customCode : Z)
| CallWithContext (ctx : context.Context).

(** The [Property] such a call returns. *)
Definition property_of (o : option_call) : Options.Property :=
  match o with
  | CallWithHTTPCode httpCode => Options.WithHTTPCode httpCode
  | CallWithCustomCode customCode => Options.WithCustomCode customCode
  | CallWithContext ctx => Options.WithContext ctx
  end.

(** What the call does to a [CustomError] it found by value. *)
Definition update_of (o : option_call) (c : Options.CustomError) : Options.CustomError :=
  match o with
  | CallWithHTTPCode httpCode => Options.setHTTPCode c httpCode
  | CallWithCustomCode customCode => Options.setCustomCode c customCode
  | CallWithContext ctx => Options.setCTX c ctx
  end.

(** What the call builds from the text of an error that does not extract as
    a [CustomError]. *)
Definition coerce_of (o : option_call) (text : string) : Options.CustomError :=
  match o with
  | CallWithHTTPCode httpCode =>
      Options.mkCustomError None text httpCode 0 context.nilContext
  | CallWithCustomCode customCode =>
      Options.mkCustomError None text 0 customCode context.nilContext
  | CallWithContext ctx => Options.mkCustomError None text 0 0 ctx
  end.

(** The context of a [CustomError] after a run of options: the last handle
    given, else the one it had. *)
Fixpoint last_context (os : list option_call) (d : context.Context) : context.Context :=
  match os with
  | [] => d
  | CallWithContext ctx :: rest => last_context rest ctx
  | _ :: rest => last_context rest d
  end.

(** The HTTP code and the custom code after a run of options, likewise. *)
Fixpoint last_HTTPCode (os : list option_call) (d : Z) : Z :=
  match os with
  | [] => d
  | CallWithHTTPCode httpCode :: rest => last_HTTPCode rest httpCode
  | _ :: rest => last_HTTPCode rest d
  end.

Fixpoint last_CustomCode (os : list option_call) (d : Z) : Z :=
  match os with
  | [] => d
  | CallWithCustomCode customCode :: rest => last_CustomCode rest customCode
  | _ :: rest => last_CustomCode rest d
  end.

(** Two calls set the same field. *)
Definition same_field (o1 o2 : option_call) : bool :=
  match o1, o2 with
  | CallWithHTTPCode _, CallWithHTTPCode _ => true
  | CallWithCustomCode _, CallWithCustomCode _ => true
  | CallWithContext _, CallWithContext _ => true
  | _, _ => false
  end.



(** [text] contains [y] and, after it, [x]. *)
Definition occurs_before (y x text : string) : Prop :=
  exists pre mid post, text = pre +:+ y +:+ mid +:+ x +:+ post.

Lemma append_empty_r (s : string) : s +:+ "" = s.
Proof.
  induction s as [|a s IH]; [reflexivity|].
  change (String a (s +:+ "") = String a s). now rewrite IH.
Qed.

(** ** Running the options *)

Section OptionRuns.
Import Options.

Lemma bind_ret {St A B} (a : A) (k : A -> Comp St B) (s : St) :
  bind (ret a) k s = k a s.
Proof. reflexivity. Qed.

(** Properties run one after the other, left to right. *)
Lemma applyProperties_app (ps qs : list Property) (e : error) (n : loc) :
  applyProperties (ps ++ qs) e n =
  bind (applyProperties ps e) (applyProperties qs) n.
Proof.
  revert e n. induction ps as [|p ps IH]; intros e n; simpl.
  - reflexivity.
  - unfold bind in *. destruct (p e n) as [[e' n']|]; [apply IH | reflexivity].
Qed.

(** On a [CustomError] held by value an option updates its one field. *)
Lemma property_of_value (o : option_call) (c : CustomError) (n : loc) :
  property_of o (Some (CustomErrorV c)) n =
  Some (Some (CustomErrorV (update_of o c)), n).
Proof. destruct o; reflexivity. Qed.

(** On a [*CustomError] the extraction into a [CustomError] value fails, and
    the option builds a fresh value from the display text. *)
Lemma property_of_pointer (o : option_call) (p : loc) (c : CustomError) (n : loc) :
  property_of o (Some (CustomErrorP p c)) n =
  Some (Some (CustomErrorV (coerce_of o (Error (CustomErrorP p c)))), n).
Proof. destruct o; reflexivity. Qed.

Lemma applyProperties_value (os : list option_call) (c : CustomError) (n : loc) :
  applyProperties (map property_of os) (Some (CustomErrorV c)) n =
  Some (Some (CustomErrorV (foldl (fun c o => update_of o c) c os)), n).
Proof.
  revert c. induction os as [|o os IH]; intros c; simpl.
  - reflexivity.
  - unfold bind. rewrite property_of_value. apply IH.
Qed.

Lemma update_of_base (o : option_call) (c : CustomError) :
  base (update_of o c) = base c.
Proof. destruct o; reflexivity. Qed.

Lemma updates_base (os : list option_call) (c : CustomError) :
  base (foldl (fun c o => update_of o c) c os) = base c.
Proof.
  revert c. induction os as [|o os IH]; intros c; simpl; [reflexivity|].
  rewrite IH. apply update_of_base.
Qed.

Lemma update_of_Message (o : option_call) (c : CustomError) :
  Message (update_of o c) = Message c.
Proof. destruct o; reflexivity. Qed.

(** [New] with at least one option starts from a [CustomError] value with
    the background context and runs the options over it. *)
Lemma New_options (msg : string) (o : option_call) (os : list option_call) (n : loc) :
  New msg (map property_of (o :: os)) n =
  Some (Some (CustomErrorV
                (foldl (fun c o => update_of o c)
                       (mkCustomError None msg 0 0 context.Background) (o :: os))), n).
Proof.
  unfold New. cbn [map length Nat.eqb].
  apply (applyProperties_value (o :: os)).
Qed.

Lemma updates_CTX (os : list option_call) (c : CustomError) :
  CTX (foldl (fun c o => update_of o c) c os) = last_context os (CTX c).
Proof.
  revert c. induction os as [|o os IH]; intros c; simpl; [reflexivity|].
  rewrite IH. destruct o; reflexivity.
Qed.


Lemma as_value_step (v : errval) :
  errors.as_value v =
  match v with
  | CustomErrorV c => Some c
  | _ =>
      match errors.Unwrap v with
      | Some u => errors.as_value u
      | None => None
      end
  end.
Proof. destruct v as [| | | ? ? [u|] | |]; reflexivity. Qed.

Lemma as_pointer_step (v : errval) :
  errors.as_pointer v =
  match v with
  | CustomErrorP p c => Some (p, c)
  | _ =>
      match errors.Unwrap v with
      | Some u => errors.as_pointer u
      | None => None
      end
  end.
Proof. destruct v as [| | | ? ? [u|] | |]; reflexivity. Qed.

End OptionRuns.

(** ** The option-based variant: construction *)

(** C6. [New(m)] without options is pkg/errors' plain error: its display
    text is [m], and it extracts as an enriched error neither into a
    [CustomError] nor into a [*CustomError]. *)
Theorem C6_New_without_options_is_plain (m : string) (n : loc) :
  exists e : Options.errval,
    Options.New m [] n = Some (Some e, S n) /\
    Options.Error e = m /\
    Options.As (Some e) = None /\
    Options.AsPtr (Some e) = None.
Proof.
  exists (Options.fundamental n m). repeat split.
Qed.

(** C7. [Wrap(nil, m, options...)] returns [nil] without panicking and
    without allocating, whatever the options are: also for options that
    would panic on every argument, so none of them is run. *)
Theorem C7_Wrap_nil_is_nil (m : string) (properties : list Options.Property) (n : loc) :
  Options.Wrap None m properties n = Some (None, n).
Proof. reflexivity. Qed.

(** C4. [New(m, WithHTTPCode(h), WithCustomCode(c))] with [h] and [c]
    nonzero extracts as a [CustomError] that carries both codes. *)
Theorem C4_New_keeps_both_codes (m : string) (h c : Z) (n : loc) :
  h <> 0 -> c <> 0 ->
  exists (e : Options.error) (r : Options.CustomError),
    Options.New m [Options.WithHTTPCode h; Options.WithCustomCode c] n = Some (e, n) /\
    Options.As e = Some r /\
    Options.HTTPCode r = h /\
    Options.CustomCode r = c.
Proof.
  intros _ _.
  pose proof (New_options m (CallWithHTTPCode h) [CallWithCustomCode c] n) as HN.
  cbn [map property_of foldl update_of] in HN.
  eexists _, _. split; [exact HN|]. repeat split.
Qed.

Lemma C4_New_keeps_both_codes_witness :
  404 <> 0 /\ 1001 <> 0 /\
  exists (e : Options.error) (r : Options.CustomError),
    Options.New "resource not found"
      [Options.WithHTTPCode 404; Options.WithCustomCode 1001] 0%nat = Some (e, 0%nat) /\
    Options.As e = Some r /\
    Options.HTTPCode r = 404 /\
    Options.CustomCode r = 1001.
Proof.
  split; [lia|]. split; [lia|].
  apply (C4_New_keeps_both_codes "resource not found" 404 1001 0%nat); lia.
Defined.

(** C8. Options run left to right and the last one to set a field wins:
    [New(m, WithHTTPCode(c1), WithHTTPCode(c2))] has HTTP code [c2]. *)
Theorem C8_last_HTTPCode_wins (m : string) (c1 c2 : Z) (n : loc) :
  exists (e : Options.error) (r : Options.CustomError),
    Options.New m [Options.WithHTTPCode c1; Options.WithHTTPCode c2] n = Some (e, n) /\
    Options.New m [Options.WithHTTPCode c1; Options.WithHTTPCode c2] n =
      bind (Options.New m [Options.WithHTTPCode c1]) (Options.WithHTTPCode c2) n /\
    Options.As e = Some r /\
    Options.HTTPCode r = c2.
Proof.
  pose proof (New_options m (CallWithHTTPCode c1) [CallWithHTTPCode c2] n) as HN.
  cbn [map property_of foldl update_of] in HN.
  eexists _, _. split; [exact HN|]. repeat split.
Qed.

(** C9. Wrapping a non-nil error [p] that does not extract as a
    [CustomError] goes through pkg/errors' [Wrap]: the text of
    [Wrap(p, y)] is [y], [": "] and the text [x] of [p], so [y] comes
    before [x]. *)
Theorem C9_Wrap_plain_prefixes_message (p : Options.errval) (x y : string) (n : loc) :
  Options.As (Some p) = None ->
  Options.Error p = x ->
  exists e : Options.errval,
    Options.Wrap (Some p) y [] n = Some (Some e, S (S n)) /\
    Options.Error e = y +:+ ": " +:+ x /\
    occurs_before y x (Options.Error e).
Proof.
  intros Hplain Hx. unfold Options.Wrap. unfold Options.As in Hplain.
  rewrite Hplain.
  exists (Options.withStack (S n) (Options.withMessage n p y)).
  split; [reflexivity|]. cbn [Options.Error]. rewrite Hx.
  split; [reflexivity|].
  exists "", ": ", "". rewrite append_empty_r. reflexivity.
Qed.

Lemma C9_Wrap_plain_prefixes_message_witness :
  Options.As (Some (Options.foreign 7%nat "x" None)) = None /\
  Options.Error (Options.foreign 7%nat "x" None) = "x" /\
  exists e : Options.errval,
    Options.Wrap (Some (Options.foreign 7%nat "x" None)) "y" [] 0%nat =
      Some (Some e, 2%nat) /\
    Options.Error e = "y" +:+ ": " +:+ "x" /\
    occurs_before "y" "x" (Options.Error e).
Proof.
  split; [reflexivity|]. split; [reflexivity|].
  apply (C9_Wrap_plain_prefixes_message (Options.foreign 7%nat "x" None) "x" "y" 0%nat);
    reflexivity.
Defined.

(** ** The option-based variant: wrapping an enriched error *)

(** C1. With [e1 = New(m1, WithHTTPCode(h))] and [e2 = Wrap(e1, m2)]:
    [e2] is a [*CustomError] whose [Cause()] is [e1], but the chain walk
    stops at [e2], which has no [Unwrap]: [Is(e2, e1)] is false, and [e2]
    extracts as a [*CustomError] only, not as the [CustomError] value the
    library's own extractions ask for. *)
Theorem C1_Wrap_enriched_not_in_chain (m1 m2 : string) (h : Z) (n : loc) :
  exists c1 c2 : Options.CustomError,
    Options.New m1 [Options.WithHTTPCode h] n =
      Some (Some (Options.CustomErrorV c1), n) /\
    Options.Wrap (Some (Options.CustomErrorV c1)) m2 [] n =
      Some (Some (Options.CustomErrorP n c2), S n) /\
    Options.AsPtr (Some (Options.CustomErrorP n c2)) = Some (n, c2) /\
    Options.Cause c2 = Some (Options.CustomErrorV c1) /\
    Options.As (Options.Cause c2) = Some c1 /\
    Options.As (Some (Options.CustomErrorP n c2)) = None /\
    Options.Is (Some (Options.CustomErrorP n c2)) (Some (Options.CustomErrorV c1)) = false.
Proof.
  eexists _, _. repeat split.
Qed.

(** C2. In [Wrap(e, m, options...)] with [e] a [CustomError] and at least
    one of the library's options, the first option does not find a
    [CustomError] value in the [*CustomError] that [Wrap] built, and
    replaces it by a fresh value without cause: the returned error's
    [Cause()] is nil, not [e], and its message is the whole display text of
    the intermediate value. *)
Theorem C2_Wrap_options_drop_cause
    (c : Options.CustomError) (m : string)
    (o : option_call) (os : list option_call) (n : loc) :
  exists r : Options.CustomError,
    Options.Wrap (Some (Options.CustomErrorV c)) m (map property_of (o :: os)) n =
      Some (Some (Options.CustomErrorV r), S n) /\
    Options.Cause r = None /\
    Options.Cause r <> Some (Options.CustomErrorV c) /\
    Options.Message r = Options.Error (Options.CustomErrorV c) +:+ ": " +:+ m.
Proof.
  unfold Options.Wrap. cbn [Options.errors.As Options.errors.as_value map].
  unfold bind at 1. cbn [Options.alloc Options.applyProperties].
  unfold bind at 1. rewrite property_of_pointer, applyProperties_value.
  eexists. split; [reflexivity|].
  unfold Options.Cause. rewrite updates_base.
  assert (HM : forall (l : list option_call) (x : Options.CustomError),
             Options.Message (foldl (fun c o => update_of o c) x l) = Options.Message x).
  { induction l as [|a l IH]; intros x; simpl; [reflexivity|].
    rewrite IH. apply update_of_Message. }
  rewrite HM. destruct o; repeat split; discriminate.
Qed.

(** C3. An error built by [Wrap] from a [CustomError] has a nil context:
    the [*CustomError] that [Wrap] builds has no context, and so has the
    value an option such as [WithHTTPCode] replaces it by, which extracts
    as a [CustomError]. *)
Theorem C3_Wrap_context_is_nil
    (c : Options.CustomError) (m : string) (code : Z) (n : loc) :
  exists r r' : Options.CustomError,
    Options.Wrap (Some (Options.CustomErrorV c)) m [Options.WithHTTPCode code] n =
      Some (Some (Options.CustomErrorV r), S n) /\
    Options.As (Some (Options.CustomErrorV r)) = Some r /\
    Options.CTX r = context.nilContext /\
    Options.Wrap (Some (Options.CustomErrorV c)) m [] n =
      Some (Some (Options.CustomErrorP n r'), S n) /\
    Options.CTX r' = context.nilContext.
Proof.
  eexists _, _. repeat split.
Qed.

(** Built by [New], an enriched error has the last context given by
    [WithContext], and the background context if there is none. *)
Lemma New_context (msg : string) (o : option_call) (os : list option_call) (n : loc) :
  exists r : Options.CustomError,
    Options.New msg (map property_of (o :: os)) n =
      Some (Some (Options.CustomErrorV r), n) /\
    Options.As (Some (Options.CustomErrorV r)) = Some r /\
    Options.CTX r = last_context (o :: os) context.Background.
Proof.
  eexists. split; [apply New_options|]. split; [reflexivity|].
  apply updates_CTX.
Qed.

(** ** The display text and the cause *)

(** C5, at the method-based variant: after [e := New("An error occurred")]
    and [e.Wrap(p)] with [p] of text ["Original error"], the cause of [e]
    is [p], yet [e.Error()] is the bare message, not the cause's text,
    [": "] and the message. *)
Lemma C5_method_Error_ignores_cause :
  Methods.New "An error occurred" ∅ =
    Some (Methods.ptr 0%nat,
          {[ 0%nat := Methods.mkCustomError Methods.nil "An error occurred" 0 0
                        context.Background ]}) /\
  Methods.Wrap 0%nat (Methods.plain 1%nat "Original error")
    {[ 0%nat := Methods.mkCustomError Methods.nil "An error occurred" 0 0
                  context.Background ]} =
    Some (Methods.plain 1%nat "Original error",
          {[ 0%nat := Methods.mkCustomError (Methods.plain 1%nat "Original error")
                        "An error occurred" 0 0 context.Background ]}) /\
  Methods.Cause 0%nat
    {[ 0%nat := Methods.mkCustomError (Methods.plain 1%nat "Original error")
                  "An error occurred" 0 0 context.Background ]} =
    Some (Methods.plain 1%nat "Original error",
          {[ 0%nat := Methods.mkCustomError (Methods.plain 1%nat "Original error")
                        "An error occurred" 0 0 context.Background ]}) /\
  Methods.Error 0%nat
    {[ 0%nat := Methods.mkCustomError (Methods.plain 1%nat "Original error")
                  "An error occurred" 0 0 context.Background ]} =
    Some ("An error occurred",
          {[ 0%nat := Methods.mkCustomError (Methods.plain 1%nat "Original error")
                        "An error occurred" 0 0 context.Background ]}) /\
  Methods.Error 0%nat
    {[ 0%nat := Methods.mkCustomError (Methods.plain 1%nat "Original error")
                  "An error occurred" 0 0 context.Background ]} <>
    Some ("Original error" +:+ ": " +:+ "An error occurred",
          {[ 0%nat := Methods.mkCustomError (Methods.plain 1%nat "Original error")
                        "An error occurred" 0 0 context.Background ]}).
Proof.
  repeat split; discriminate.
Qed.

(** C5, as the code has it.  In the option-based variant a [CustomError]
    with a non-nil cause, held by value or through a pointer, displays as
    the cause's text, [": "] and its own message; the cause's text is used
    as a whole, whatever it is made of.  In the method-based variant
    [Error()] is the error's own message, with or without a cause. *)
Theorem C5_Error_text
    (c : Options.CustomError) (b : Options.errval) (p : loc)
    (h : gmap loc Methods.CustomError) (e : loc) (c' : Methods.CustomError) :
  Options.Cause c = Some b ->
  h !! e = Some c' ->
  Options.Error (Options.CustomErrorV c) =
    Options.Error b +:+ ": " +:+ Options.Message c /\
  Options.Error (Options.CustomErrorP p c) =
    Options.Error b +:+ ": " +:+ Options.Message c /\
  Methods.Error e h = Some (Methods.message c', h).
Proof.
  intros Hb He. unfold Options.Cause in Hb.
  cbn [Options.Error]. rewrite Hb.
  repeat split.
  unfold Methods.Error, bind, Methods.deref. rewrite He. reflexivity.
Qed.

Lemma C5_Error_text_witness :
  Options.Cause
    (Options.mkCustomError (Some (Options.fundamental 0%nat "original error"))
       "file not found" 404 0 context.nilContext) =
    Some (Options.fundamental 0%nat "original error") /\
  ({[ 0%nat := Methods.mkCustomError (Methods.plain 1%nat "Original error")
                 "An error occurred" 0 0 context.Background ]}
     : gmap loc Methods.CustomError) !! 0%nat =
    Some (Methods.mkCustomError (Methods.plain 1%nat "Original error")
            "An error occurred" 0 0 context.Background) /\
  Options.Error
    (Options.CustomErrorV
       (Options.mkCustomError (Some (Options.fundamental 0%nat "original error"))
          "file not found" 404 0 context.nilContext)) =
    "original error: file not found" /\
  Options.Error
    (Options.CustomErrorP 1%nat
       (Options.mkCustomError (Some (Options.fundamental 0%nat "original error"))
          "file not found" 404 0 context.nilContext)) =
    "original error: file not found" /\
  Methods.Error 0%nat
    {[ 0%nat := Methods.mkCustomError (Methods.plain 1%nat "Original error")
                  "An error occurred" 0 0 context.Background ]} =
    Some ("An error occurred",
          {[ 0%nat := Methods.mkCustomError (Methods.plain 1%nat "Original error")
                        "An error occurred" 0 0 context.Background ]}).
Proof.
  split; [reflexivity|]. split; [reflexivity|].
  apply (C5_Error_text
           (Options.mkCustomError (Some (Options.fundamental 0%nat "original error"))
              "file not found" 404 0 context.nilContext)
           (Options.fundamental 0%nat "original error") 1%nat
           {[ 0%nat := Methods.mkCustomError (Methods.plain 1%nat "Original error")
                         "An error occurred" 0 0 context.Background ]}
           0%nat
           (Methods.mkCustomError (Methods.plain 1%nat "Original error")
              "An error occurred" 0 0 context.Background));
    reflexivity.
Defined.

(** ** The method-based variant: [Wrap] *)

(** C10. On a live receiver [e], [e.Wrap(err)] returns [err] itself, not
    [e], and stores [err] as the base of [e] and changes nothing else.  So
    afterwards [e.Cause()] is [err], the display text of the returned value
    is the text of [err], and [e] still displays its own message. *)
Theorem C10_method_Wrap_returns_argument
    (h : gmap loc Methods.CustomError) (e : loc) (c : Methods.CustomError)
    (err : Methods.error) :
  h !! e = Some c ->
  exists (r : Methods.error) (h' : gmap loc Methods.CustomError),
    Methods.Wrap e err h = Some (r, h') /\
    r = err /\
    (err <> Methods.ptr e -> r <> Methods.ptr e) /\
    h' = <[e := Methods.mkCustomError err (Methods.message c) (Methods.httpCode c)
                  (Methods.customCode c) (Methods.ctx c)]> h /\
    Methods.Cause e h' = Some (err, h') /\
    fst <$> Methods.callError r h' = fst <$> Methods.callError err h /\
    Methods.Error e h' = Some (Methods.message c, h').
Proof.
  intros He. eexists _, _.
  split; [unfold Methods.Wrap, bind, Methods.deref; rewrite He; reflexivity|].
  split; [reflexivity|]. split; [auto|]. split; [reflexivity|].
  split; [unfold Methods.Cause, bind, Methods.deref; rewrite lookup_insert_eq; reflexivity|].
  split.
  - destruct err as [|q text|q]; [reflexivity | reflexivity |].
    cbn [Methods.callError]. unfold Methods.Error, bind, Methods.deref.
    destruct (decide (e = q)) as [->|Hne].
    + rewrite lookup_insert_eq, He. reflexivity.
    + rewrite lookup_insert_ne by exact Hne. destruct (h !! q); reflexivity.
  - unfold Methods.Error, bind, Methods.deref. rewrite lookup_insert_eq. reflexivity.
Qed.

Lemma C10_method_Wrap_returns_argument_witness :
  ({[ 0%nat := Methods.mkCustomError Methods.nil "An error occurred" 0 0
                 context.Background ]}
     : gmap loc Methods.CustomError) !! 0%nat =
    Some (Methods.mkCustomError Methods.nil "An error occurred" 0 0 context.Background) /\
  exists (r : Methods.error) (h' : gmap loc Methods.CustomError),
    Methods.Wrap 0%nat (Methods.plain 1%nat "Original error")
      {[ 0%nat := Methods.mkCustomError Methods.nil "An error occurred" 0 0
                    context.Background ]} = Some (r, h') /\
    r = Methods.plain 1%nat "Original error" /\
    (Methods.plain 1%nat "Original error" <> Methods.ptr 0%nat -> r <> Methods.ptr 0%nat) /\
    h' = <[0%nat := Methods.mkCustomError (Methods.plain 1%nat "Original error")
                      "An error occurred" 0 0 context.Background]>
           {[ 0%nat := Methods.mkCustomError Methods.nil "An error occurred" 0 0
                         context.Background ]} /\
    Methods.Cause 0%nat h' = Some (Methods.plain 1%nat "Original error", h') /\
    fst <$> Methods.callError r h' =
      fst <$> Methods.callError (Methods.plain 1%nat "Original error")
                {[ 0%nat := Methods.mkCustomError Methods.nil "An error occurred" 0 0
                              context.Background ]} /\
    Methods.Error 0%nat h' = Some ("An error occurred", h').
Proof.
  split; [reflexivity|].
  apply (C10_method_Wrap_returns_argument
           {[ 0%nat := Methods.mkCustomError Methods.nil "An error occurred" 0 0
                         context.Background ]}
           0%nat
           (Methods.mkCustomError Methods.nil "An error occurred" 0 0 context.Background)
           (Methods.plain 1%nat "Original error")).
  reflexivity.
Defined.

(** ** Further properties of the option-based variant *)

Section OptionsMore.
Import Options.




(** On an error that extracts as [c], an option returns [c] with its one
    field set; on a non-nil error that does not extract, a fresh value
    made from the text. *)
Lemma property_of_extracted (o : option_call) (v : errval) (c : CustomError) (n : loc) :
  errors.as_value v = Some c ->
  property_of o (Some v) n = Some (Some (CustomErrorV (update_of o c)), n).
Proof.
  intros H. destruct o; simpl;
    unfold WithHTTPCode, WithCustomCode, WithContext; simpl; rewrite H; reflexivity.
Qed.

Lemma property_of_plain (o : option_call) (v : errval) (n : loc) :
  errors.as_value v = None ->
  property_of o (Some v) n = Some (Some (CustomErrorV (coerce_of o (Error v))), n).
Proof.
  intros H. destruct o; simpl;
    unfold WithHTTPCode, WithCustomCode, WithContext; simpl; rewrite H; reflexivity.
Qed.

(** The plain branch of [Wrap]: two allocations, no property run. *)
Lemma Wrap_plain (p : errval) (m : string) (properties : list Property) (n : loc) :
  errors.as_value p = None ->
  Wrap (Some p) m properties n =
    Some (Some (withStack (S n) (withMessage n p m)), S (S n)).
Proof. intros Hp. unfold Wrap. cbn [errors.As]. rewrite Hp. reflexivity. Qed.


(** A run of options over a [CustomError] value leaves cause and message
    alone, and each other field at the last value given for it. *)
Lemma updates_fields (os : list option_call) (c : CustomError) :
  foldl (fun c o => update_of o c) c os =
  mkCustomError (base c) (Message c)
    (last_HTTPCode os (HTTPCode c))
    (last_CustomCode os (CustomCode c))
    (last_context os (CTX c)).
Proof.
  revert c. induction os as [|a l IH]; intros [b m h k x]; [reflexivity|].
  cbn [foldl]. rewrite IH. destruct a; reflexivity.
Qed.

End OptionsMore.

(** X1. [Wrap] of a non-nil error without a [CustomError] value in its
    chain returns pkg/errors' wrapper and never looks at the options: the
    result is the same for every list of properties, also panicking ones,
    and does not extract as a [CustomError], so no option's code or
    context can be read from it. *)
Theorem X1_Wrap_plain_ignores_options
    (p : Options.errval) (m : string) (properties : list Options.Property) (n : loc) :
  Options.As (Some p) = None ->
  Options.Wrap (Some p) m properties n =
    Some (Some (Options.withStack (S n) (Options.withMessage n p m)), S (S n)) /\
  Options.As (Some (Options.withStack (S n) (Options.withMessage n p m))) = None.
Proof.
  intros Hp. split; [apply Wrap_plain, Hp | exact Hp].
Qed.

Lemma X1_Wrap_plain_ignores_options_witness :
  Options.As (Some (Options.foreign 7%nat "original error" None)) = None /\
  Options.Wrap (Some (Options.foreign 7%nat "original error" None)) "file not found"
      [Options.WithHTTPCode 404; fun _ => panic] 0%nat =
    Some (Some (Options.withStack 1%nat
                  (Options.withMessage 0%nat
                     (Options.foreign 7%nat "original error" None) "file not found")),
          2%nat) /\
  Options.As (Some (Options.withStack 1%nat
                      (Options.withMessage 0%nat
                         (Options.foreign 7%nat "original error" None)
                         "file not found"))) = None.
Proof.
  split; [reflexivity|].
  apply (X1_Wrap_plain_ignores_options (Options.foreign 7%nat "original error" None)
           "file not found" [Options.WithHTTPCode 404; fun _ => panic] 0%nat).
  reflexivity.
Defined.




(** X4. [Wrap] of an error in whose chain [As] finds the [CustomError] [c]
    returns a fresh [*CustomError] with the new message, zero codes, no
    context, and [c] as its cause: the cause is the extracted value, so
    when the error wrapped is not [c] itself, what lay above [c] is not
    part of the result, and the text is that of [c], [": "] and the
    message. *)
Theorem X4_Wrap_keeps_extracted_value_only
    (v : Options.errval) (c : Options.CustomError) (m : string) (n : loc) :
  Options.As (Some v) = Some c ->
  exists r : Options.CustomError,
    Options.Wrap (Some v) m [] n = Some (Some (Options.CustomErrorP n r), S n) /\
    r = Options.mkCustomError (Some (Options.CustomErrorV c)) m 0 0 context.nilContext /\
    (v <> Options.CustomErrorV c -> Options.Cause r <> Some v) /\
    Options.Error (Options.CustomErrorP n r) =
      Options.Error (Options.CustomErrorV c) +:+ ": " +:+ m.
Proof.
  intros Hv. unfold Options.Wrap. unfold Options.As in Hv. rewrite Hv.
  eexists. split; [reflexivity|]. split; [reflexivity|]. split; [|reflexivity].
  intros Hne Heq. apply Hne. cbn in Heq. congruence.
Qed.

Lemma X4_Wrap_keeps_extracted_value_only_witness :
  Options.As
    (Some (Options.withStack 1%nat
             (Options.withMessage 0%nat
                (Options.CustomErrorV
                   (Options.mkCustomError None "not found" 404 0 context.Background))
                "while loading"))) =
    Some (Options.mkCustomError None "not found" 404 0 context.Background) /\
  exists r : Options.CustomError,
    Options.Wrap
      (Some (Options.withStack 1%nat
               (Options.withMessage 0%nat
                  (Options.CustomErrorV
                     (Options.mkCustomError None "not found" 404 0 context.Background))
                  "while loading"))) "request failed" [] 2%nat =
      Some (Some (Options.CustomErrorP 2%nat r), 3%nat) /\
    r = Options.mkCustomError
          (Some (Options.CustomErrorV
                   (Options.mkCustomError None "not found" 404 0 context.Background)))
          "request failed" 0 0 context.nilContext /\
    (Options.withStack 1%nat
       (Options.withMessage 0%nat
          (Options.CustomErrorV
             (Options.mkCustomError None "not found" 404 0 context.Background))
          "while loading") <>
       Options.CustomErrorV
         (Options.mkCustomError None "not found" 404 0 context.Background) ->
     Options.Cause r <>
       Some (Options.withStack 1%nat
               (Options.withMessage 0%nat
                  (Options.CustomErrorV
                     (Options.mkCustomError None "not found" 404 0 context.Background))
                  "while loading"))) /\
    Options.Error (Options.CustomErrorP 2%nat r) =
      Options.Error
        (Options.CustomErrorV
           (Options.mkCustomError None "not found" 404 0 context.Background))
      +:+ ": " +:+ "request failed".
Proof.
  split; [reflexivity|].
  apply (X4_Wrap_keeps_extracted_value_only
           (Options.withStack 1%nat
              (Options.withMessage 0%nat
                 (Options.CustomErrorV
                    (Options.mkCustomError None "not found" 404 0 context.Background))
                 "while loading"))
           (Options.mkCustomError None "not found" 404 0 context.Background)
           "request failed" 2%nat).
  reflexivity.
Defined.

(** X5. [New] with at least one of the library's options never allocates
    and never panics.  The result is a [CustomError] value without cause,
    with the message given, and with each field at the value of the last
    option that set it: zero for a code no option set, the background
    context when no option set one.  Its display text is [": "] and the
    message, not the bare message that [New] without options displays. *)
Theorem X5_New_with_options
    (msg : string) (o : option_call) (os : list option_call) (n : loc) :
  Options.New msg (map property_of (o :: os)) n =
    Some (Some (Options.CustomErrorV
                  (Options.mkCustomError None msg
                     (last_HTTPCode (o :: os) 0)
                     (last_CustomCode (o :: os) 0)
                     (last_context (o :: os) context.Background))), n) /\
  Options.Error
    (Options.CustomErrorV
       (Options.mkCustomError None msg
          (last_HTTPCode (o :: os) 0)
          (last_CustomCode (o :: os) 0)
          (last_context (o :: os) context.Background))) = ": " +:+ msg.
Proof.
  split; [|reflexivity].
  rewrite New_options, updates_fields. reflexivity.
Qed.

(** X6. An option applied to the nil error panics: nothing extracts from
    nil, and the fallback calls [err.Error()] on it.  So [New] panics when
    a caller's property returns nil and one of the library's options comes
    next. *)
Theorem X6_option_on_nil_panics (o : option_call) (msg : string) (n : loc) :
  property_of o None n = None /\
  Options.New msg [(fun _ => ret None) : Options.Property; property_of o] n = None.
Proof. destruct o; split; reflexivity. Qed.




(** X9. On every non-nil error two options that set different fields
    commute. *)
Theorem X9_options_on_different_fields_commute
    (o1 o2 : option_call) (v : Options.errval) (n : loc) :
  same_field o1 o2 = false ->
  Options.applyProperties [property_of o1; property_of o2] (Some v) n =
  Options.applyProperties [property_of o2; property_of o1] (Some v) n.
Proof.
  intros Hf. cbn [Options.applyProperties]. unfold bind.
  destruct (Options.errors.as_value v) as [c|] eqn:Hv.
  - rewrite !(property_of_extracted _ v c n Hv), !property_of_value.
    destruct o1, o2; try discriminate Hf; reflexivity.
  - rewrite !(property_of_plain _ v n Hv), !property_of_value.
    destruct o1, o2; try discriminate Hf; reflexivity.
Qed.

Lemma X9_options_on_different_fields_commute_witness :
  same_field (CallWithHTTPCode 404) (CallWithContext (context.Request 3)) = false /\
  Options.applyProperties
    [property_of (CallWithHTTPCode 404); property_of (CallWithContext (context.Request 3))]
    (Some (Options.fundamental 0%nat "not found")) 1%nat =
  Options.applyProperties
    [property_of (CallWithContext (context.Request 3)); property_of (CallWithHTTPCode 404)]
    (Some (Options.fundamental 0%nat "not found")) 1%nat.
Proof.
  split; [reflexivity|].
  apply (X9_options_on_different_fields_commute (CallWithHTTPCode 404)
           (CallWithContext (context.Request 3))
           (Options.fundamental 0%nat "not found") 1%nat).
  reflexivity.
Defined.

(** X10. On every non-nil error, of two options that set the same field the
    second overwrites the first: the pair gives what the second alone
    gives. *)
Theorem X10_later_option_overwrites
    (o1 o2 : option_call) (v : Options.errval) (n : loc) :
  same_field o1 o2 = true ->
  Options.applyProperties [property_of o1; property_of o2] (Some v) n =
  Options.applyProperties [property_of o2] (Some v) n.
Proof.
  intros Hf. cbn [Options.applyProperties]. unfold bind.
  destruct (Options.errors.as_value v) as [c|] eqn:Hv.
  - rewrite !(property_of_extracted _ v c n Hv), !property_of_value.
    destruct o1, o2; try discriminate Hf; reflexivity.
  - rewrite !(property_of_plain _ v n Hv), !property_of_value.
    destruct o1, o2; try discriminate Hf; reflexivity.
Qed.

Lemma X10_later_option_overwrites_witness :
  same_field (CallWithCustomCode 7) (CallWithCustomCode 1001) = true /\
  Options.applyProperties
    [property_of (CallWithCustomCode 7); property_of (CallWithCustomCode 1001)]
    (Some (Options.fundamental 0%nat "not found")) 1%nat =
  Options.applyProperties [property_of (CallWithCustomCode 1001)]
    (Some (Options.fundamental 0%nat "not found")) 1%nat.
Proof.
  split; [reflexivity|].
  apply (X10_later_option_overwrites (CallWithCustomCode 7) (CallWithCustomCode 1001)
           (Options.fundamental 0%nat "not found") 1%nat).
  reflexivity.
Defined.

(** X11. With the library's options [Wrap] never panics, and it returns
    nil exactly when the error wrapped is nil; so does [New] never panic
    nor return nil. *)
Theorem X11_Wrap_nil_iff_nil
    (err : Options.error) (m : string) (os : list option_call) (n : loc) :
  (exists (e : Options.error) (n' : loc),
     Options.Wrap err m (map property_of os) n = Some (e, n') /\
     (e = None <-> err = None)) /\
  (exists (v : Options.errval) (n' : loc),
     Options.New m (map property_of os) n = Some (Some v, n')).
Proof.
  split.
  - destruct err as [v|]; [|exists None, n; split; [reflexivity | tauto]].
    unfold Options.Wrap. cbn [Options.errors.As].
    destruct (Options.errors.as_value v) as [c|] eqn:Hv.
    + unfold bind at 1. cbn [Options.alloc].
      destruct os as [|o os].
      * eexists _, _. split; [reflexivity|]. split; discriminate.
      * cbn [map Options.applyProperties]. unfold bind at 1.
        rewrite property_of_pointer, applyProperties_value.
        eexists _, _. split; [reflexivity|]. split; discriminate.
    + eexists _, _. split; [reflexivity|]. split; discriminate.
  - destruct os as [|o os].
    + eexists _, _. reflexivity.
    + rewrite New_options. eexists _, _. reflexivity.
Qed.

(** X12. Wrapping twice: the [*CustomError] that [Wrap] returns for a
    [CustomError] does not extract as a value, so a second [Wrap] takes the
    branch of plain errors.  The outer message then comes first and the
    inner one last, the result does not extract as a [CustomError], and the
    first result is in its chain. *)
Theorem X12_Wrap_of_Wrap_is_plain
    (c : Options.CustomError) (m1 m2 : string) (n : loc) :
  exists e1 e2 : Options.errval,
    Options.Wrap (Some (Options.CustomErrorV c)) m1 [] n = Some (Some e1, S n) /\
    Options.Wrap (Some e1) m2 [] (S n) = Some (Some e2, S (S (S n))) /\
    Options.Error e2 =
      m2 +:+ ": " +:+ (Options.Error (Options.CustomErrorV c) +:+ ": " +:+ m1) /\
    Options.As (Some e2) = None /\
    Options.Is (Some e2) (Some e1) = true.
Proof.
  eexists _, _. split; [reflexivity|]. split; [reflexivity|].
  split; [reflexivity|]. split; [reflexivity|].
  unfold Options.Is, Options.errors.Is.
  cbn [Options.errors.is_ Options.errors.errval_eqb].
  rewrite Nat.eqb_refl, !orb_true_r. reflexivity.
Qed.

(** X13. [New] runs its properties from left to right: with a non-empty
    first part, [New(msg, ps..., qs...)] is [qs] run on [New(msg, ps...)].
    With an empty first part it is not: [New(msg)] is a plain error at a
    fresh address, from which an option builds a value without context,
    where [New(msg, WithHTTPCode(h))] has the background context and
    allocates nothing. *)
Theorem X13_New_runs_left_to_right
    (msg : string) (ps qs : list Options.Property) (h : Z) (n : loc) :
  (ps <> [] ->
   Options.New msg (ps ++ qs) n =
     bind (Options.New msg ps) (Options.applyProperties qs) n) /\
  Options.New msg [Options.WithHTTPCode h] n =
    Some (Some (Options.CustomErrorV
                  (Options.mkCustomError None msg h 0 context.Background)), n) /\
  bind (Options.New msg []) (Options.applyProperties [Options.WithHTTPCode h]) n =
    Some (Some (Options.CustomErrorV
                  (Options.mkCustomError None msg h 0 context.nilContext)), S n).
Proof.
  split; [|split; reflexivity].
  intros Hps. destruct ps as [|p ps]; [contradiction|].
  unfold Options.New. cbn [app length Nat.eqb].
  apply (applyProperties_app (p :: ps) qs).
Qed.

Lemma X13_New_runs_left_to_right_witness :
  [Options.WithHTTPCode 404] <> [] /\
  (([Options.WithHTTPCode 404] <> [] ->
    Options.New "not found" ([Options.WithHTTPCode 404] ++ [Options.WithCustomCode 7])
      0%nat =
      bind (Options.New "not found" [Options.WithHTTPCode 404])
        (Options.applyProperties [Options.WithCustomCode 7]) 0%nat) /\
   Options.New "not found" [Options.WithHTTPCode 500] 0%nat =
     Some (Some (Options.CustomErrorV
                   (Options.mkCustomError None "not found" 500 0 context.Background)),
           0%nat) /\
   bind (Options.New "not found" [])
     (Options.applyProperties [Options.WithHTTPCode 500]) 0%nat =
     Some (Some (Options.CustomErrorV
                   (Options.mkCustomError None "not found" 500 0 context.nilContext)),
           1%nat)).
Proof.
  split; [discriminate|].
  apply (X13_New_runs_left_to_right "not found" [Options.WithHTTPCode 404]
           [Options.WithCustomCode 7] 500 0%nat).
Defined.

(** ** Further properties of the method-based variant *)

Section MethodsMore.
Import Methods.

Lemma deref_live (h : gmap loc CustomError) (e : loc) (c : CustomError) :
  h !! e = Some c -> deref e h = Some (c, h).
Proof. intros H. unfold deref. rewrite H. reflexivity. Qed.

Lemma deref_dead (h : gmap loc CustomError) (e : loc) :
  h !! e = None -> deref e h = None.
Proof. intros H. unfold deref. rewrite H. reflexivity. Qed.

(** The address [New] picks is not in use. *)
Lemma New_address_unused (h : gmap loc CustomError) : h !! fresh (dom h) = None.
Proof. apply not_elem_of_dom, is_fresh. Qed.

(** A call that assigns to a field of [e]: the receiver is live, and the
    heap afterwards differs at [e] only. *)
Ltac assigned_object Hrun e q :=
  unfold Wrap, WithHttpCode, WithCustomCode, WithContext, bind, deref, store in Hrun;
  let ce := fresh "ce" in
  let He := fresh "He" in
  let Hne := fresh "Hne" in
  destruct (_ !! e) as [ce|] eqn:He; [|discriminate];
  injection Hrun as _ <-;
  destruct (decide (e = q)) as [->|Hne];
  [ rewrite lookup_insert_eq; eexists; split; [reflexivity|]; cbn; congruence
  | rewrite lookup_insert_ne by exact Hne; eauto ].

(** A call keeps every object alive and keeps its message. *)
Lemma run_call_message (k : method_call) (h h' : gmap loc CustomError)
    (r : error) (q : loc) (c : CustomError) :
  run_call k h = Some (r, h') ->
  h !! q = Some c ->
  exists c', h' !! q = Some c' /\ message c' = message c.
Proof.
  intros Hrun Hq.
  destruct k as [msg|e err|e z|e z|e x]; cbn [run_call] in Hrun.
  - unfold New in Hrun. injection Hrun as _ <-.
    exists c. split; [|reflexivity].
    rewrite lookup_insert_ne; [exact Hq|].
    intros Heq. rewrite <- Heq, New_address_unused in Hq. discriminate.
  - assigned_object Hrun e q.
  - assigned_object Hrun e q.
  - assigned_object Hrun e q.
  - assigned_object Hrun e q.
Qed.

End MethodsMore.

(** X14. [New(msg)] of the method-based variant returns a pointer to a new
    object at an address that held none, and leaves every other object as
    it was.  The new error displays [msg], has zero codes, the background
    context and no cause. *)
Theorem X14_method_New_is_fresh (msg : string) (h : gmap loc Methods.CustomError) :
  exists (p : loc) (h' : gmap loc Methods.CustomError),
    Methods.New msg h = Some (Methods.ptr p, h') /\
    h !! p = None /\
    (forall (q : loc) (c : Methods.CustomError), h !! q = Some c -> h' !! q = Some c) /\
    Methods.Error p h' = Some (msg, h') /\
    Methods.HTTPCode p h' = Some (0, h') /\
    Methods.CustomCode p h' = Some (0, h') /\
    Methods.Context p h' = Some (context.Background, h') /\
    Methods.Cause p h' = Some (Methods.nil, h') /\
    Methods.Unwrap p h' = Some (Methods.nil, h').
Proof.
  eexists _, _. split; [reflexivity|].
  split; [apply New_address_unused|]. split.
  - intros q c Hq. rewrite lookup_insert_ne; [exact Hq|].
    intros Heq. rewrite <- Heq, New_address_unused in Hq. discriminate.
  - unfold Methods.Error, Methods.HTTPCode, Methods.CustomCode, Methods.Context,
      Methods.Cause, Methods.Unwrap, bind, Methods.deref.
    rewrite lookup_insert_eq. repeat split.
Qed.

(** X15. Method chaining on a live receiver: [WithHttpCode],
    [WithCustomCode] and [WithContext] each return the receiver itself, and
    afterwards the three getters read the three values back, while the
    message and the cause are as before and no other object changed. *)
Theorem X15_method_setters_chain
    (h : gmap loc Methods.CustomError) (e : loc) (c : Methods.CustomError)
    (a b : Z) (x : context.Context) :
  h !! e = Some c ->
  exists h' : gmap loc Methods.CustomError,
    bind (Methods.WithHttpCode e a) (fun r1 =>
    bind (Methods.WithCustomCode e b) (fun r2 =>
    bind (Methods.WithContext e x) (fun r3 => ret (r1, r2, r3)))) h =
      Some ((Methods.ptr e, Methods.ptr e, Methods.ptr e), h') /\
    h' = <[e := Methods.mkCustomError (Methods.base c) (Methods.message c) a b x]> h /\
    Methods.HTTPCode e h' = Some (a, h') /\
    Methods.CustomCode e h' = Some (b, h') /\
    Methods.Context e h' = Some (x, h') /\
    Methods.Error e h' = Some (Methods.message c, h') /\
    Methods.Cause e h' = Some (Methods.base c, h').
Proof.
  intros He. eexists. split.
  - unfold bind at 1. unfold Methods.WithHttpCode at 1.
    unfold bind at 1. rewrite (deref_live h e c He).
    unfold bind at 1. unfold Methods.store at 1. unfold ret at 1.
    unfold bind at 1. unfold Methods.WithCustomCode at 1.
    unfold bind at 1. unfold Methods.deref at 1. rewrite lookup_insert_eq.
    unfold bind at 1. unfold Methods.store at 1. unfold ret at 1.
    unfold bind at 1. unfold Methods.WithContext at 1.
    unfold bind at 1. unfold Methods.deref at 1. rewrite lookup_insert_eq.
    unfold bind at 1. unfold Methods.store at 1. unfold ret.
    cbn. rewrite !insert_insert_eq. reflexivity.
  - split; [reflexivity|].
    unfold Methods.Error, Methods.HTTPCode, Methods.CustomCode, Methods.Context,
      Methods.Cause, bind, Methods.deref.
    rewrite lookup_insert_eq. repeat split.
Qed.

Lemma X15_method_setters_chain_witness :
  ({[ 0%nat := Methods.mkCustomError Methods.nil "Unauthorized" 0 0 context.Background ]}
     : gmap loc Methods.CustomError) !! 0%nat =
    Some (Methods.mkCustomError Methods.nil "Unauthorized" 0 0 context.Background) /\
  exists h' : gmap loc Methods.CustomError,
    bind (Methods.WithHttpCode 0%nat 401) (fun r1 =>
    bind (Methods.WithCustomCode 0%nat 2001) (fun r2 =>
    bind (Methods.WithContext 0%nat (context.Request 5)) (fun r3 => ret (r1, r2, r3))))
      {[ 0%nat := Methods.mkCustomError Methods.nil "Unauthorized" 0 0
                    context.Background ]} =
      Some ((Methods.ptr 0%nat, Methods.ptr 0%nat, Methods.ptr 0%nat), h') /\
    h' = <[0%nat := Methods.mkCustomError Methods.nil "Unauthorized" 401 2001
                      (context.Request 5)]>
           {[ 0%nat := Methods.mkCustomError Methods.nil "Unauthorized" 0 0
                         context.Background ]} /\
    Methods.HTTPCode 0%nat h' = Some (401, h') /\
    Methods.CustomCode 0%nat h' = Some (2001, h') /\
    Methods.Context 0%nat h' = Some (context.Request 5, h') /\
    Methods.Error 0%nat h' = Some ("Unauthorized", h') /\
    Methods.Cause 0%nat h' = Some (Methods.nil, h').
Proof.
  split; [reflexivity|].
  apply (X15_method_setters_chain
           {[ 0%nat := Methods.mkCustomError Methods.nil "Unauthorized" 0 0
                         context.Background ]}
           0%nat
           (Methods.mkCustomError Methods.nil "Unauthorized" 0 0 context.Background)
           401 2001 (context.Request 5)).
  reflexivity.
Defined.

Section MethodsAssign.
Import Methods.

(** An assigning call panics on a dead receiver; on a live one it stores
    the assigned object there and returns its value. *)
Lemma run_call_assigns (k : method_call) (e : loc) (f : field)
    (h : gmap loc CustomError) :
  assigns k = Some (e, f) ->
  run_call k h =
  match h !! e with
  | Some c => Some (returned k, <[e := assigned k c]> h)
  | None => None
  end.
Proof.
  intros Hk. destruct k; cbn in Hk; try discriminate; injection Hk as <- _;
    cbn [run_call]; unfold Wrap, WithHttpCode, WithCustomCode, WithContext,
      bind, deref, store;
    destruct (h !! _); reflexivity.
Qed.

Lemma run_calls_two (k1 k2 : method_call) (h : gmap loc CustomError) :
  run_calls [k1; k2] h =
  match run_call k1 h with
  | Some (_, h1) =>
      match run_call k2 h1 with
      | Some (_, h2) => Some (tt, h2)
      | None => None
      end
  | None => None
  end.
Proof.
  cbn [run_calls]. unfold bind, ret.
  destruct (run_call k1 h) as [[r1 h1]|]; [|reflexivity].
  destruct (run_call k2 h1) as [[r2 h2]|]; reflexivity.
Qed.

Lemma run_calls_one (k : method_call) (h : gmap loc CustomError) :
  run_calls [k] h =
  match run_call k h with
  | Some (_, h1) => Some (tt, h1)
  | None => None
  end.
Proof.
  cbn [run_calls]. unfold bind, ret.
  destruct (run_call k h) as [[r1 h1]|]; reflexivity.
Qed.

End MethodsAssign.

(** X16. Two assigning calls ([Wrap], [WithHttpCode], [WithCustomCode],
    [WithContext]) on different objects, or on different fields of one
    object, commute: in either order they leave the same heap, or panic
    alike. *)
Theorem X16_method_assignments_commute
    (k1 k2 : Methods.method_call) (a1 a2 : loc * Methods.field)
    (h : gmap loc Methods.CustomError) :
  Methods.assigns k1 = Some a1 ->
  Methods.assigns k2 = Some a2 ->
  a1 <> a2 ->
  Methods.run_calls [k1; k2] h = Methods.run_calls [k2; k1] h.
Proof.
  destruct a1 as [e1 f1], a2 as [e2 f2]. intros H1 H2 Hne.
  rewrite !run_calls_two.
  rewrite (run_call_assigns k1 e1 f1 h H1), (run_call_assigns k2 e2 f2 h H2).
  destruct (decide (e1 = e2)) as [->|He].
  - destruct (h !! e2) as [c|] eqn:Hc; [|reflexivity].
    rewrite (run_call_assigns k2 e2 f2 _ H2), (run_call_assigns k1 e2 f1 _ H1).
    rewrite !lookup_insert_eq, !insert_insert_eq.
    assert (Hf : f1 <> f2) by congruence.
    destruct k1; cbn in H1; try discriminate; injection H1 as _ <-;
      destruct k2; cbn in H2; try discriminate; injection H2 as _ <-;
      try reflexivity; contradiction.
  - assert (He' : e2 <> e1) by congruence.
    destruct (h !! e1) as [c1|] eqn:Hc1, (h !! e2) as [c2|] eqn:Hc2.
    + rewrite (run_call_assigns k2 e2 f2 _ H2), (run_call_assigns k1 e1 f1 _ H1).
      rewrite !lookup_insert_ne by assumption.
      rewrite Hc1, Hc2. rewrite insert_insert_ne by exact He'. reflexivity.
    + rewrite (run_call_assigns k2 e2 f2 _ H2).
      rewrite lookup_insert_ne by assumption. rewrite Hc2. reflexivity.
    + rewrite (run_call_assigns k1 e1 f1 _ H1).
      rewrite lookup_insert_ne by assumption. rewrite Hc1. reflexivity.
    + reflexivity.
Qed.

Lemma X16_method_assignments_commute_witness :
  Methods.assigns (Methods.CallWrap 0%nat (Methods.plain 1%nat "Original error")) =
    Some (0%nat, Methods.Fbase) /\
  Methods.assigns (Methods.CallWithHttpCode 0%nat 404) = Some (0%nat, Methods.FhttpCode) /\
  (0%nat, Methods.Fbase) <> (0%nat, Methods.FhttpCode) /\
  Methods.run_calls
    [Methods.CallWrap 0%nat (Methods.plain 1%nat "Original error");
     Methods.CallWithHttpCode 0%nat 404]
    {[ 0%nat := Methods.mkCustomError Methods.nil "File not found" 0 0
                  context.Background ]} =
  Methods.run_calls
    [Methods.CallWithHttpCode 0%nat 404;
     Methods.CallWrap 0%nat (Methods.plain 1%nat "Original error")]
    {[ 0%nat := Methods.mkCustomError Methods.nil "File not found" 0 0
                  context.Background ]}.
Proof.
  split; [reflexivity|]. split; [reflexivity|]. split; [discriminate|].
  apply (X16_method_assignments_commute
           (Methods.CallWrap 0%nat (Methods.plain 1%nat "Original error"))
           (Methods.CallWithHttpCode 0%nat 404)
           (0%nat, Methods.Fbase) (0%nat, Methods.FhttpCode));
    [reflexivity | reflexivity | discriminate].
Defined.

(** X17. A second assignment to the same field of the same object
    overwrites the first: the two calls leave the heap that the second
    alone leaves.  In particular a second [Wrap] replaces the cause. *)
Theorem X17_method_assignment_overwrites
    (k1 k2 : Methods.method_call) (a : loc * Methods.field)
    (h : gmap loc Methods.CustomError) :
  Methods.assigns k1 = Some a ->
  Methods.assigns k2 = Some a ->
  Methods.run_calls [k1; k2] h = Methods.run_calls [k2] h.
Proof.
  destruct a as [e f]. intros H1 H2.
  rewrite run_calls_two, run_calls_one.
  rewrite (run_call_assigns k1 e f h H1), (run_call_assigns k2 e f h H2).
  destruct (h !! e) as [c|] eqn:Hc; [|reflexivity].
  rewrite (run_call_assigns k2 e f _ H2).
  rewrite lookup_insert_eq, insert_insert_eq.
  destruct k1; cbn in H1; try discriminate; injection H1 as _ <-;
    destruct k2; cbn in H2; try discriminate; reflexivity.
Qed.

Lemma X17_method_assignment_overwrites_witness :
  Methods.assigns (Methods.CallWrap 0%nat (Methods.plain 1%nat "first cause")) =
    Some (0%nat, Methods.Fbase) /\
  Methods.assigns (Methods.CallWrap 0%nat (Methods.plain 2%nat "second cause")) =
    Some (0%nat, Methods.Fbase) /\
  Methods.run_calls
    [Methods.CallWrap 0%nat (Methods.plain 1%nat "first cause");
     Methods.CallWrap 0%nat (Methods.plain 2%nat "second cause")]
    {[ 0%nat := Methods.mkCustomError Methods.nil "File not found" 0 0
                  context.Background ]} =
  Methods.run_calls
    [Methods.CallWrap 0%nat (Methods.plain 2%nat "second cause")]
    {[ 0%nat := Methods.mkCustomError Methods.nil "File not found" 0 0
                  context.Background ]}.
Proof.
  split; [reflexivity|]. split; [reflexivity|].
  apply (X17_method_assignment_overwrites
           (Methods.CallWrap 0%nat (Methods.plain 1%nat "first cause"))
           (Methods.CallWrap 0%nat (Methods.plain 2%nat "second cause"))
           (0%nat, Methods.Fbase)); reflexivity.
Defined.

Section MethodsIs.
Import Methods.


End MethodsIs.

(** X18. Every method panics on a receiver that points at no object (a nil
    [*CustomError]): the getters, [Is], and each assigning call. *)
Theorem X18_method_dead_receiver_panics
    (h : gmap loc Methods.CustomError) (e : loc) :
  h !! e = None ->
  Methods.Error e h = None /\
  Methods.Unwrap e h = None /\
  Methods.Cause e h = None /\
  Methods.HTTPCode e h = None /\
  Methods.CustomCode e h = None /\
  Methods.Context e h = None /\
  (forall (fuel : nat) (err : Methods.error), Methods.Is fuel e err h = None) /\
  (forall (k : Methods.method_call) (f : Methods.field),
     Methods.assigns k = Some (e, f) -> Methods.run_call k h = None).
Proof.
  intros He.
  unfold Methods.Error, Methods.Unwrap, Methods.Cause, Methods.HTTPCode,
    Methods.CustomCode, Methods.Context, Methods.Is, bind.
  rewrite (deref_dead h e He). repeat split.
  intros k f Hk. rewrite (run_call_assigns k e f h Hk), He. reflexivity.
Qed.

Lemma X18_method_dead_receiver_panics_witness :
  (∅ : gmap loc Methods.CustomError) !! 0%nat = None /\
  (Methods.Error 0%nat ∅ = None /\
   Methods.Unwrap 0%nat ∅ = None /\
   Methods.Cause 0%nat ∅ = None /\
   Methods.HTTPCode 0%nat ∅ = None /\
   Methods.CustomCode 0%nat ∅ = None /\
   Methods.Context 0%nat ∅ = None /\
   (forall (fuel : nat) (err : Methods.error), Methods.Is fuel 0%nat err ∅ = None) /\
   (forall (k : Methods.method_call) (f : Methods.field),
      Methods.assigns k = Some (0%nat, f) -> Methods.run_call k ∅ = None)).
Proof.
  split; [reflexivity|].
  apply (X18_method_dead_receiver_panics ∅ 0%nat). reflexivity.
Defined.





(** X21. An error wrapped into itself: after [e.Wrap(e)] the walk of
    [e.Is(err)] for a non-nil [err] other than [e] comes back to [e] for
    ever, so it returns with no amount of fuel. *)
Theorem X21_method_Is_self_wrap_never_returns
    (h : gmap loc Methods.CustomError) (e : loc) (c : Methods.CustomError)
    (err : Methods.error) (fuel : nat) :
  h !! e = Some c ->
  err <> Methods.nil ->
  err <> Methods.ptr e ->
  bind (Methods.Wrap e (Methods.ptr e)) (fun _ => Methods.Is fuel e err) h = None.
Proof.
  intros He Hnil Hne.
  unfold bind at 1. unfold Methods.Wrap, bind at 1.
  rewrite (deref_live h e c He). unfold bind at 1. cbn [Methods.store ret].
  unfold Methods.Is, bind, Methods.deref. rewrite lookup_insert_eq.
  cbn [Methods.base].
  assert (Hloop : forall f : nat,
             Methods.errors_Is f (Methods.ptr e) err
               (<[e := Methods.mkCustomError (Methods.ptr e) (Methods.message c)
                         (Methods.httpCode c) (Methods.customCode c) (Methods.ctx c)]> h)
             = None).
  { induction f as [|f IH]; [reflexivity|].
    destruct err as [|p text|q]; [congruence | |];
      cbn [Methods.errors_Is Methods.error_eqb].
    - rewrite lookup_insert_eq. cbn [Methods.base]. rewrite IH. reflexivity.
    - destruct (Nat.eqb e q) eqn:Heq.
      + apply Nat.eqb_eq in Heq. congruence.
      + rewrite lookup_insert_eq. cbn [Methods.base]. rewrite IH. reflexivity. }
  rewrite Hloop. reflexivity.
Qed.

Lemma X21_method_Is_self_wrap_never_returns_witness :
  ({[ 0%nat := Methods.mkCustomError Methods.nil "loop" 0 0 context.Background ]}
     : gmap loc Methods.CustomError) !! 0%nat =
    Some (Methods.mkCustomError Methods.nil "loop" 0 0 context.Background) /\
  Methods.plain 1%nat "other" <> Methods.nil /\
  Methods.plain 1%nat "other" <> Methods.ptr 0%nat /\
  bind (Methods.Wrap 0%nat (Methods.ptr 0%nat))
    (fun _ => Methods.Is 1000%nat 0%nat (Methods.plain 1%nat "other"))
    {[ 0%nat := Methods.mkCustomError Methods.nil "loop" 0 0 context.Background ]} = None.
Proof.
  split; [reflexivity|]. split; [discriminate|]. split; [discriminate|].
  apply (X21_method_Is_self_wrap_never_returns
           {[ 0%nat := Methods.mkCustomError Methods.nil "loop" 0 0 context.Background ]}
           0%nat (Methods.mkCustomError Methods.nil "loop" 0 0 context.Background)
           (Methods.plain 1%nat "other") 1000%nat);
    [reflexivity | discriminate | discriminate].
Defined.

(** X22. No sequence of calls ([New], [Wrap], [WithHttpCode],
    [WithCustomCode], [WithContext]) removes an object or changes its
    message: the display text of an error stays what [New] gave it. *)
Theorem X22_method_message_is_stable
    (ks : list Methods.method_call) (h h' : gmap loc Methods.CustomError)
    (q : loc) (c : Methods.CustomError) :
  Methods.run_calls ks h = Some (tt, h') ->
  h !! q = Some c ->
  Methods.Error q h = Some (Methods.message c, h) /\
  Methods.Error q h' = Some (Methods.message c, h').
Proof.
  intros Hrun Hq. split.
  { unfold Methods.Error, bind. rewrite (deref_live h q c Hq). reflexivity. }
  assert (Hc : exists c', h' !! q = Some c' /\ Methods.message c' = Methods.message c).
  { revert h c Hrun Hq. induction ks as [|k ks IH]; intros h c Hrun Hq.
    - cbn in Hrun. injection Hrun as <-. eauto.
    - cbn [Methods.run_calls] in Hrun. unfold bind in Hrun.
      destruct (Methods.run_call k h) as [[r h1]|] eqn:Hk; [|discriminate].
      destruct (run_call_message k h h1 r q c Hk Hq) as (c1 & Hq1 & Hm1).
      destruct (IH h1 c1 Hrun Hq1) as (c' & Hq' & Hm').
      exists c'. split; [exact Hq' | congruence]. }
  destruct Hc as (c' & Hq' & Hm').
  unfold Methods.Error, bind. rewrite (deref_live h' q c' Hq'). cbn [ret].
  rewrite Hm'. reflexivity.
Qed.

Lemma X22_method_message_is_stable_witness :
  Methods.run_calls
    [Methods.CallWrap 0%nat (Methods.plain 1%nat "Original error");
     Methods.CallWithHttpCode 0%nat 404;
     Methods.CallNew "another"]
    {[ 0%nat := Methods.mkCustomError Methods.nil "File not found" 0 0
                  context.Background ]} =
    Some (tt,
          <[1%nat := Methods.mkCustomError Methods.nil "another" 0 0 context.Background]>
            {[ 0%nat := Methods.mkCustomError (Methods.plain 1%nat "Original error")
                          "File not found" 404 0 context.Background ]}) /\
  ({[ 0%nat := Methods.mkCustomError Methods.nil "File not found" 0 0
                 context.Background ]}
     : gmap loc Methods.CustomError) !! 0%nat =
    Some (Methods.mkCustomError Methods.nil "File not found" 0 0 context.Background) /\
  Methods.Error 0%nat
    {[ 0%nat := Methods.mkCustomError Methods.nil "File not found" 0 0
                  context.Background ]} =
    Some ("File not found",
          {[ 0%nat := Methods.mkCustomError Methods.nil "File not found" 0 0
                        context.Background ]}) /\
  Methods.Error 0%nat
    (<[1%nat := Methods.mkCustomError Methods.nil "another" 0 0 context.Background]>
       {[ 0%nat := Methods.mkCustomError (Methods.plain 1%nat "Original error")
                     "File not found" 404 0 context.Background ]}) =
    Some ("File not found",
          <[1%nat := Methods.mkCustomError Methods.nil "another" 0 0 context.Background]>
            {[ 0%nat := Methods.mkCustomError (Methods.plain 1%nat "Original error")
                          "File not found" 404 0 context.Background ]}).
Proof.
  split; [reflexivity|]. split; [reflexivity|].
  apply (X22_method_message_is_stable
           [Methods.CallWrap 0%nat (Methods.plain 1%nat "Original error");
            Methods.CallWithHttpCode 0%nat 404;
            Methods.CallNew "another"]
           {[ 0%nat := Methods.mkCustomError Methods.nil "File not found" 0 0
                         context.Background ]}
           (<[1%nat := Methods.mkCustomError Methods.nil "another" 0 0
                         context.Background]>
              {[ 0%nat := Methods.mkCustomError (Methods.plain 1%nat "Original error")
                            "File not found" 404 0 context.Background ]})
           0%nat
           (Methods.mkCustomError Methods.nil "File not found" 0 0 context.Background));
    reflexivity.
Defined.
